(** * dimod: the Composite capability and the ExactSolver reference sampler

    A shallow embedding of [dimod/core/composite.py] and
    [dimod/reference/samplers/exact_solver.py].

    Python objects are modelled by inductive types, raising an exception by
    the [Raise] constructor of [result], and methods that receive [self] by
    functions that take the instance and give it back next to their result. *)

From Stdlib Require Import List Finite ZArith QArith String Arith Lia Bool.
Import ListNotations.

Local Open Scope string_scope.
Local Open Scope list_scope.
Local Open Scope nat_scope.

(** ** Python exceptions and results *)

Inductive exn : Type :=
| IndexError
| TypeError
| KeyError
| ValueError
| RuntimeError (msg : string).

Inductive result (A : Type) : Type :=
| Ok (a : A)
| Raise (e : exn).

Arguments Ok {A} a.
Arguments Raise {A} e.

Definition bind {A B : Type} (r : result A) (k : A -> result B) : result B :=
  match r with
  | Ok a => k a
  | Raise e => Raise e
  end.

Notation "x <- r ;; k" := (bind r (fun x => k))
  (at level 61, r at next level, right associativity).

Definition exn_eqb (e1 e2 : exn) : bool :=
  match e1, e2 with
  | IndexError, IndexError => true
  | TypeError, TypeError => true
  | KeyError, KeyError => true
  | ValueError, ValueError => true
  | RuntimeError m1, RuntimeError m2 => String.eqb m1 m2
  | _, _ => false
  end.

(** [try: body except exc: handler]: the handler runs when [body] raised
    exactly [exc]; every other exception goes through. *)
Definition try_except {A : Type} (body : result A) (exc : exn)
    (handler : result A) : result A :=
  match body with
  | Ok a => Ok a
  | Raise e => if exn_eqb e exc then handler else Raise e
  end.

(** ** composite.py *)

Module Composite.

Section WithSampler.

(** The type of the objects stored as children; the code never looks inside. *)
Variable Sampler : Type.

(** What the [children] property of a concrete class can evaluate to: a
    [list] or [tuple] of samplers, [None] (the class attribute of the
    docstring's [SpinReversalTransformComposite], before [__init__] has
    assigned [self.children]), an [int], or a [dict].  These are the shapes
    considered here; other Python objects (a [str], a [range], an object
    with a [__getitem__] of its own) are not represented. *)
Inductive pyobj : Type :=
| PyNone
| PyInt (z : Z)
| PyList (l : list Sampler)
| PyTuple (l : list Sampler)
| PyDict (d : list (Z * Sampler)).

Record Composite : Type := { children : pyobj }.

Fixpoint dict_get (d : list (Z * Sampler)) (k : Z) : option Sampler :=
  match d with
  | [] => None
  | (k', v) :: rest => if Z.eqb k' k then Some v else dict_get rest k
  end.

(** [obj[i]] for a non-negative index [i]. *)
Definition getitem (obj : pyobj) (i : nat) : result Sampler :=
  match obj with
  | PyNone => Raise TypeError
  | PyInt _ => Raise TypeError
  | PyList l | PyTuple l =>
      match nth_error l i with
      | Some s => Ok s
      | None => Raise IndexError
      end
  | PyDict d =>
      match dict_get d (Z.of_nat i) with
      | Some s => Ok s
      | None => Raise KeyError
      end
  end.

Definition missing_child : exn :=
  RuntimeError "A Composite must have at least one child Sampler".

(** The [child] property. *)
Definition child (self : Composite) : result Sampler :=
  try_except (getitem (children self) 0) IndexError (Raise missing_child).

(** [k] successive reads of the property on the same instance. *)
Definition child_reads (self : Composite) (k : nat) : list (result Sampler) :=
  map (fun _ => child self) (seq 0 k).

End WithSampler.

Arguments PyNone {Sampler}.
Arguments PyInt {Sampler} z.
Arguments PyList {Sampler} l.
Arguments PyTuple {Sampler} l.
Arguments PyDict {Sampler} d.
Arguments children {Sampler} c.
Arguments getitem {Sampler} obj i.
Arguments child {Sampler} self.
Arguments child_reads {Sampler} self k.

End Composite.

(** ** itertools.product

    The Python standard library documents [product] by this code, which the
    definitions below follow line by line:
<<
    def product( *iterables, repeat=1):
        pools = [tuple(pool) for pool in iterables] * repeat
        result = [[]]
        for pool in pools:
            result = [x+[y] for x in result for y in pool]
        for prod in result:
            yield tuple(prod)
>> *)

Module itertools.

Section Product.

Variable A : Type.

(** One round of the loop: [[x+[y] for x in result for y in pool]]. *)
Definition extend (result : list (list A)) (pool : list A) : list (list A) :=
  flat_map (fun x => map (fun y => x ++ [y]) pool) result.

Definition product (iterables : list (list A)) (repeat : nat) : list (list A) :=
  let pools := List.concat (List.repeat iterables repeat) in
  fold_left extend pools [[]].

End Product.

Arguments extend {A} result pool.
Arguments product {A} iterables repeat.

End itertools.

(** ** The variable domain tag *)

Module Vartype.

Inductive Vartype : Type := SPIN | BINARY.

(** Modelled from the spec: the enumeration [dimod.Vartype] is not part of
    the two source files.  The spec gives the two admissible value sets,
    [{-1,+1}] and [{0,1}]; [value] lists each set in the order in which
    iterating over it yields its members.  For [SPIN] that order is read off
    the docstring of [ExactSolver]: the rows numbered 0, 1, 2, 3 of the
    printed sample set are (+1,+1), (+1,-1), (-1,+1), (-1,-1). *)
Definition value (v : Vartype) : list Z :=
  match v with
  | SPIN => [1; -1]%Z
  | BINARY => [0; 1]%Z
  end.

End Vartype.

(** ** The quadratic model *)

Module BQM.

Import Vartype.

(** Modelled from the spec: the class [BinaryQuadraticModel] is not part of
    the two source files.  Following the spec's data model, a model holds
    its variables with their linear biases (a dictionary, so insertion order
    is kept), quadratic biases on pairs of variables, a scalar offset and a
    domain tag.  Labels are strings and numbers are exact rationals. *)
Record BinaryQuadraticModel : Type := {
  linear : list (string * Q);
  quadratic : list ((string * string) * Q);
  offset : Q;
  vartype : Vartype
}.

(** [list(bqm)]: the variables, in iteration order. *)
Definition variables (bqm : BinaryQuadraticModel) : list string :=
  map fst (linear bqm).

(** [len(bqm)]: the number of variables. *)
Definition len (bqm : BinaryQuadraticModel) : nat :=
  List.length (linear bqm).

Definition mentions (labels : list string) (v : string) : bool :=
  existsb (String.eqb v) labels.

(** The spec's invariant on a model: every variable that a quadratic bias
    refers to is one of the model's variables. *)
Definition well_formed (bqm : BinaryQuadraticModel) : bool :=
  forallb
    (fun '((u, v), _) =>
       mentions (variables bqm) u && mentions (variables bqm) v)
    (quadratic bqm).

Fixpoint index_of (v : string) (labels : list string) : option nat :=
  match labels with
  | [] => None
  | l :: rest =>
      if String.eqb l v then Some 0
      else option_map S (index_of v rest)
  end.

(** The value a row gives to variable [v], the columns of the row being
    labelled by [labels].  The spec leaves open which exception a model
    raises on a variable it cannot find; [KeyError] stands for it here. *)
Definition value_of (labels : list string) (row : list Z) (v : string)
  : result Z :=
  match index_of v labels with
  | None => Raise KeyError
  | Some i =>
      match nth_error row i with
      | Some x => Ok x
      | None => Raise KeyError
      end
  end.

Fixpoint linear_energy (labels : list string) (row : list Z)
    (lin : list (string * Q)) : result Q :=
  match lin with
  | [] => Ok 0%Q
  | (v, h) :: rest =>
      x <- value_of labels row v ;;
      e <- linear_energy labels row rest ;;
      Ok (h * inject_Z x + e)%Q
  end.

Fixpoint quadratic_energy (labels : list string) (row : list Z)
    (quad : list ((string * string) * Q)) : result Q :=
  match quad with
  | [] => Ok 0%Q
  | ((u, v), j) :: rest =>
      xu <- value_of labels row u ;;
      xv <- value_of labels row v ;;
      e <- quadratic_energy labels row rest ;;
      Ok (j * inject_Z xu * inject_Z xv + e)%Q
  end.

(** Modelled from the spec: the model's energy function, "linear-bias
    contribution + quadratic-bias contribution over all referenced variable
    pairs + offset", on one assignment. *)
Definition energy (bqm : BinaryQuadraticModel) (labels : list string)
    (row : list Z) : result Q :=
  l <- linear_energy labels row (linear bqm) ;;
  q <- quadratic_energy labels row (quadratic bqm) ;;
  Ok (l + q + offset bqm)%Q.

(** [bqm.energies((samples, labels))]: one energy per row, in row order. *)
Fixpoint energies (bqm : BinaryQuadraticModel) (labels : list string)
    (rows : list (list Z)) : result (list Q) :=
  match rows with
  | [] => Ok []
  | row :: rest =>
      e <- energy bqm labels row ;;
      es <- energies bqm labels rest ;;
      Ok (e :: es)
  end.

End BQM.

(** ** The result set *)

Module SampleSet.

Import Vartype.

Record Datum : Type := {
  sample : list Z;
  energy : Q;
  num_occurrences : nat
}.

(** Modelled from the spec: the class [SampleSet] is not part of the two
    source files.  A result set is "an ordered sequence of (assignment
    vector, energy, occurrence count) tuples, plus the set of variable
    identifiers the columns correspond to, plus the shared domain tag". *)
Record SampleSet : Type := {
  record : list Datum;
  variables : list string;
  vartype : Vartype
}.

(** A samples-like argument: the rows and the labels of their columns.  The
    bare [[]] of the source is [([], [])]. *)
Definition samples_like : Type := (list (list Z) * list string)%type.

Fixpoint assemble (rows : list (list Z)) (es : list Q)
  : result (list Datum) :=
  match rows, es with
  | [], [] => Ok []
  | row :: rows', e :: es' =>
      ds <- assemble rows' es' ;;
      Ok ({| sample := row; energy := e; num_occurrences := 1 |} :: ds)
  | _, _ => Raise ValueError
  end.

(** Modelled from the spec: [SampleSet.from_samples(samples_like, vartype,
    energy=...)], the spec's build-from-empty entry point, which "assemble[s]
    all (assignment, energy) pairs, with an occurrence count of 1 each, into
    a single Result Set" with "no deduplication, sorting, or filtering". *)
Definition from_samples (sl : samples_like) (vt : Vartype)
    (energy : list Q) : result SampleSet :=
  ds <- assemble (fst sl) energy ;;
  Ok {| record := ds; variables := snd sl; vartype := vt |}.

(** Modelled from the spec: [SampleSet.from_samples_bqm(samples_like, bqm)],
    the spec's build-from-assignments entry point, "accepting a matrix of
    assignment vectors plus the ordered variable-label list and the source
    model (to derive energies/domain)". *)
Definition from_samples_bqm (sl : samples_like)
    (bqm : BQM.BinaryQuadraticModel) : result SampleSet :=
  es <- BQM.energies bqm (snd sl) (fst sl) ;;
  from_samples sl (BQM.vartype bqm) es.

Definition samples (ss : SampleSet) : list (list Z) :=
  map sample (record ss).

End SampleSet.

(** ** exact_solver.py *)

Module ExactSolver.

(** Values stored in the configuration dictionaries and passed as keyword
    arguments. *)
Inductive pyval : Type :=
| VNone
| VBool (b : bool)
| VInt (z : Z)
| VStr (s : string).

Definition dict : Type := list (string * pyval).

Record ExactSolver : Type := {
  properties : dict;
  parameters : dict
}.

Definition __init__ : ExactSolver :=
  {| properties := []; parameters := [] |}.

(** The list built on line 87:
    [list(itertools.product(bqm.vartype.value, repeat=n))]. *)
Definition enumerate (bqm : BQM.BinaryQuadraticModel) : list (list Z) :=
  itertools.product [Vartype.value (BQM.vartype bqm)] (BQM.len bqm).

(** [sample(self, bqm)]; the instance is returned next to the result. *)
Definition sample (self : ExactSolver) (bqm : BQM.BinaryQuadraticModel)
  : ExactSolver * result SampleSet.SampleSet :=
  let n := BQM.len bqm in
  if Nat.eqb n 0 then
    (self, SampleSet.from_samples ([], []) (BQM.vartype bqm) [])
  else
    let samples := enumerate bqm in
    let response :=
      SampleSet.from_samples_bqm (samples, BQM.variables bqm) bqm in
    (self, response).

(** The call [solver.sample(model, **kwargs)] against the signature
    [def sample(self, bqm)]: the model binds to [bqm]; a keyword [bqm] is a
    second value for that parameter and any other keyword is unexpected, so
    a call with keywords raises [TypeError] before the body runs. *)
Definition call_sample (self : ExactSolver) (model : BQM.BinaryQuadraticModel)
    (kwargs : dict) : ExactSolver * result SampleSet.SampleSet :=
  match kwargs with
  | [] => sample self model
  | _ :: _ => (self, Raise TypeError)
  end.

End ExactSolver.

(** ** The enumeration as the spec words it *)

Module Spec.

Section Enumeration.

Variable A : Type.

(** "Nesting the domain's two values (outer-to-inner iteration)": [n] nested
    loops over the domain, the loop of the first position outermost. *)
Fixpoint nested_product (dom : list A) (n : nat) : list (list A) :=
  match n with
  | 0 => [[]]
  | S k => flat_map (fun a => map (cons a) (nested_product dom k)) dom
  end.

(** The row at position [i] of the lexicographic order over [n] positions of
    a two-valued domain: position [j] holds the first value when bit
    [n-1-j] of [i] is clear and the second when it is set. *)
Fixpoint row_of_index (dflt : A) (dom : list A) (n i : nat) : list A :=
  match n with
  | 0 => []
  | S k => nth (i / 2 ^ k) dom dflt :: row_of_index dflt dom k (i mod 2 ^ k)
  end.

(** A length-[n] assignment vector over the domain. *)
Definition assignment (dom : list A) (n : nat) (s : list A) : Prop :=
  List.length s = n /\ Forall (fun x => In x dom) s.

End Enumeration.

Arguments nested_product {A} dom n.
Arguments row_of_index {A} dflt dom n i.
Arguments assignment {A} dom n s.

End Spec.

(** ** Models used as examples *)

Module Examples.

(** The Ising model of the docstring of [ExactSolver]:
    [h = {'a': -0.5, 'b': 1.0}], [J = {('a', 'b'): -1.5}]. *)
Definition ising_ab : BQM.BinaryQuadraticModel :=
  {| BQM.linear := [("a", (-1 # 2)%Q); ("b", 1%Q)];
     BQM.quadratic := [(("a", "b"), (-3 # 2)%Q)];
     BQM.offset := 0%Q;
     BQM.vartype := Vartype.SPIN |}.

(** A model with the single binary variable [x]. *)
Definition binary_x : BQM.BinaryQuadraticModel :=
  {| BQM.linear := [("x", 2%Q)];
     BQM.quadratic := [];
     BQM.offset := 1%Q;
     BQM.vartype := Vartype.BINARY |}.

(** A model without variables. *)
Definition empty_spin : BQM.BinaryQuadraticModel :=
  {| BQM.linear := [];
     BQM.quadratic := [];
     BQM.offset := (7 # 2)%Q;
     BQM.vartype := Vartype.SPIN |}.

(** A sampler instance that is not the freshly constructed one. *)
Definition configured : ExactSolver.ExactSolver :=
  {| ExactSolver.properties := [("description", ExactSolver.VStr "exact")];
     ExactSolver.parameters := [("num_reads", ExactSolver.VNone)] |}.

End Examples.

Module Malformed.


End Malformed.

(** * Facts about [itertools.product] *)

Section ProductFacts.

Context {A : Type}.

Implicit Types (dom : list A) (acc : list (list A)).

Lemma concat_repeat_singleton dom n :
  List.concat (List.repeat [dom] n) = List.repeat dom n.
Proof.
  induction n as [|n IH]; simpl; [reflexivity|].
  now rewrite IH.
Qed.

Lemma flat_map_singleton_app acc :
  flat_map (fun x => map (app x) [[]]) acc = acc.
Proof.
  induction acc as [|x acc IH]; simpl in *; [reflexivity|].
  now rewrite app_nil_r, IH.
Qed.

Lemma appended_then_completed (x : list A) (rows : list (list A)) dom :
  flat_map (fun p => map (app p) rows) (map (fun y => x ++ [y]) dom)
  = map (app x) (flat_map (fun a => map (cons a) rows) dom).
Proof.
  induction dom as [|a dom IH]; simpl; [reflexivity|].
  rewrite IH, map_app, map_map.
  f_equal. apply map_ext. intros s. now rewrite <- app_assoc.
Qed.

Lemma extend_then_completed acc (rows : list (list A)) dom :
  flat_map (fun p => map (app p) rows) (itertools.extend acc dom)
  = flat_map
      (fun x => map (app x) (flat_map (fun a => map (cons a) rows) dom)) acc.
Proof.
  unfold itertools.extend.
  induction acc as [|x acc IH]; simpl; [reflexivity|].
  now rewrite flat_map_app, IH, appended_then_completed.
Qed.

Lemma fold_extend_nested dom n acc :
  fold_left itertools.extend (List.repeat dom n) acc
  = flat_map (fun x => map (app x) (Spec.nested_product dom n)) acc.
Proof.
  revert acc. induction n as [|n IH]; intros acc;
    cbn [List.repeat fold_left Spec.nested_product].
  - now rewrite flat_map_singleton_app.
  - now rewrite IH, extend_then_completed.
Qed.

Lemma product_nested dom n :
  itertools.product [dom] n = Spec.nested_product dom n.
Proof.
  unfold itertools.product.
  rewrite concat_repeat_singleton, fold_extend_nested. simpl.
  rewrite app_nil_r. apply map_id.
Qed.

End ProductFacts.

(** * Facts about the nested enumeration *)

Section NestedFacts.

Context {A : Type}.

Implicit Types (dom : list A) (rows : list (list A)) (s : list A).

Lemma length_prefixed dom rows :
  List.length (flat_map (fun a => map (cons a) rows) dom)
  = List.length dom * List.length rows.
Proof.
  induction dom as [|a dom IH]; simpl; [reflexivity|].
  now rewrite length_app, length_map, IH.
Qed.

Lemma nested_product_length dom n :
  List.length (Spec.nested_product dom n) = List.length dom ^ n.
Proof.
  induction n as [|n IH]; simpl; [reflexivity|].
  now rewrite length_prefixed, IH.
Qed.

Lemma in_prefixed dom rows s :
  In s (flat_map (fun a => map (cons a) rows) dom)
  <-> exists a t, s = a :: t /\ In a dom /\ In t rows.
Proof.
  rewrite in_flat_map. split.
  - intros (a & Ha & Hs). apply in_map_iff in Hs as (t & <- & Ht).
    now exists a, t.
  - intros (a & t & -> & Ha & Ht). exists a. split; [assumption|].
    now apply in_map.
Qed.

Lemma nested_product_in dom n s :
  In s (Spec.nested_product dom n) <-> Spec.assignment dom n s.
Proof.
  unfold Spec.assignment. revert s.
  induction n as [|n IH]; intros s; simpl.
  - split.
    + intros [<-|[]]. now split.
    + intros [Hlen _]. left. symmetry. now apply length_zero_iff_nil.
  - rewrite in_prefixed. split.
    + intros (a & t & -> & Ha & Ht). apply IH in Ht as [Hlen Hall].
      simpl. split; [now rewrite Hlen | now constructor].
    + intros [Hlen Hall]. destruct s as [|a t]; [discriminate|].
      inversion Hall; subst. exists a, t. repeat split; trivial.
      apply IH. split; [now injection Hlen | assumption].
Qed.

Lemma NoDup_prefixed dom rows :
  NoDup dom -> NoDup rows ->
  NoDup (flat_map (fun a => map (cons a) rows) dom).
Proof.
  intros Hdom Hrows.
  induction Hdom as [|a dom Hnotin Hdom IH]; simpl; [constructor|].
  apply NoDup_app.
  - apply Injective_map_NoDup; [|assumption].
    intros t t' Heq. now injection Heq.
  - exact IH.
  - intros s Hs Hs'.
    apply in_map_iff in Hs as (t & <- & _).
    apply in_prefixed in Hs' as (a' & t' & Heq & Ha' & _).
    injection Heq as -> _. contradiction.
Qed.

Lemma nested_product_NoDup dom n :
  NoDup dom -> NoDup (Spec.nested_product dom n).
Proof.
  intros Hdom. induction n as [|n IH]; simpl.
  - repeat constructor. intros [].
  - now apply NoDup_prefixed.
Qed.

Lemma seq_add_start m len :
  seq m len = map (Nat.add m) (seq 0 len).
Proof.
  induction m as [|m IH]; simpl.
  - symmetry. apply map_id.
  - rewrite <- seq_shift, IH, map_map. reflexivity.
Qed.

(** For a two-valued domain the nested enumeration lists the rows by
    increasing index. *)
Lemma nested_product_by_index (dflt a b : A) n :
  Spec.nested_product [a; b] n
  = map (Spec.row_of_index dflt [a; b] n) (seq 0 (2 ^ n)).
Proof.
  induction n as [|n IH]; [reflexivity|].
  assert (Hpos : 2 ^ n <> 0) by (apply Nat.pow_nonzero; discriminate).
  cbn [Spec.nested_product flat_map]. rewrite app_nil_r.
  replace (2 ^ S n) with (2 ^ n + 2 ^ n) by (simpl; lia).
  rewrite seq_app, map_app. cbn [Nat.add].
  rewrite (seq_add_start (2 ^ n)), map_map, IH, !map_map.
  f_equal; apply map_ext_in; intros i Hi; apply in_seq in Hi;
    cbn [Spec.row_of_index].
  - rewrite Nat.div_small, Nat.mod_small by lia. reflexivity.
  - replace ((2 ^ n + i) / 2 ^ n) with 1
      by (apply (Nat.div_unique _ _ 1 i); lia).
    replace ((2 ^ n + i) mod 2 ^ n) with i
      by (apply (Nat.mod_unique _ _ 1 i); lia).
    reflexivity.
Qed.

End NestedFacts.

(** * Facts about the model's energies *)

Section EnergyFacts.

Import BQM.

Implicit Types (labels : list string) (row : list Z).

Lemma index_of_in labels v :
  In v labels ->
  exists i, index_of v labels = Some i /\ i < List.length labels.
Proof.
  induction labels as [|l labels IH]; simpl; [intros []|].
  intros Hin. destruct (String.eqb_spec l v) as [->|Hne].
  - exists 0. split; [reflexivity | lia].
  - destruct Hin as [Heq|Hin]; [contradiction|].
    destruct (IH Hin) as (i & -> & Hi). exists (S i). split; [reflexivity | lia].
Qed.

Lemma value_of_ok labels row v :
  In v labels -> List.length row = List.length labels ->
  exists x, value_of labels row v = Ok x.
Proof.
  intros Hin Hlen. unfold value_of.
  destruct (index_of_in labels v Hin) as (i & -> & Hi).
  destruct (nth_error row i) as [x|] eqn:Hnth; [now exists x|].
  apply nth_error_None in Hnth. lia.
Qed.

Lemma linear_energy_ok labels row lin :
  (forall v h, In (v, h) lin -> In v labels) ->
  List.length row = List.length labels ->
  exists e, linear_energy labels row lin = Ok e.
Proof.
  intros Hvars Hlen. induction lin as [|[v h] lin IH]; simpl.
  - now exists 0%Q.
  - destruct (value_of_ok labels row v) as [x ->];
      [apply (Hvars v h); now left | assumption |].
    destruct IH as [e ->]; [intros v' h' H'; apply (Hvars v' h'); now right|].
    simpl. eauto.
Qed.

Lemma quadratic_energy_ok labels row quad :
  (forall u v j, In ((u, v), j) quad -> In u labels /\ In v labels) ->
  List.length row = List.length labels ->
  exists e, quadratic_energy labels row quad = Ok e.
Proof.
  intros Hvars Hlen. induction quad as [|[[u v] j] quad IH]; simpl.
  - now exists 0%Q.
  - destruct (Hvars u v j) as [Hu Hv]; [now left|].
    destruct (value_of_ok labels row u Hu Hlen) as [xu ->].
    destruct (value_of_ok labels row v Hv Hlen) as [xv ->].
    destruct IH as [e ->];
      [intros u' v' j' H'; apply (Hvars u' v' j'); now right|].
    simpl. eauto.
Qed.

Lemma well_formed_in bqm :
  well_formed bqm = true ->
  forall u v j, In ((u, v), j) (quadratic bqm) ->
    In u (variables bqm) /\ In v (variables bqm).
Proof.
  unfold well_formed. rewrite forallb_forall. intros Hall u v j Hin.
  specialize (Hall _ Hin). cbn beta iota in Hall.
  apply andb_true_iff in Hall as [Hu Hv]. unfold mentions in Hu, Hv.
  apply existsb_exists in Hu as (u' & Hu' & Hequ).
  apply existsb_exists in Hv as (v' & Hv' & Heqv).
  apply String.eqb_eq in Hequ, Heqv. subst. now split.
Qed.

Lemma energy_ok bqm row :
  well_formed bqm = true -> List.length row = len bqm ->
  exists e, energy bqm (variables bqm) row = Ok e.
Proof.
  intros Hwf Hlen. pose proof (well_formed_in bqm Hwf) as Hquad.
  unfold energy.
  assert (Hlabels : List.length row = List.length (variables bqm))
    by (unfold variables; now rewrite length_map).
  destruct (linear_energy_ok (variables bqm) row (linear bqm)) as [l ->];
    [|assumption|].
  { intros v h Hin. unfold variables.
    change v with (fst (v, h)). now apply in_map. }
  destruct (quadratic_energy_ok (variables bqm) row (quadratic bqm))
    as [q ->]; [exact Hquad | assumption |].
  simpl. eauto.
Qed.

Lemma energies_ok bqm rows :
  well_formed bqm = true ->
  Forall (fun row => List.length row = len bqm) rows ->
  exists es, energies bqm (variables bqm) rows = Ok es.
Proof.
  intros Hwf Hrows. induction Hrows as [|row rows Hrow _ IH]; simpl.
  - now exists [].
  - destruct (energy_ok bqm row Hwf Hrow) as [e ->].
    destruct IH as [es ->]. simpl. eauto.
Qed.

(** What a successful call of [energies] returned. *)
Lemma energies_inv bqm labels rows es :
  energies bqm labels rows = Ok es ->
  Forall2 (fun row e => energy bqm labels row = Ok e) rows es.
Proof.
  revert es. induction rows as [|row rows IH]; simpl; intros es H.
  - injection H as <-. constructor.
  - destruct (energy bqm labels row) as [e|] eqn:He; [|discriminate].
    destruct (energies bqm labels rows) as [es'|]; [|discriminate].
    simpl in H. injection H as <-. constructor; auto.
Qed.

End EnergyFacts.

(** * Facts about the assembly of a result set *)

Section AssembleFacts.

Import SampleSet.

Lemma assemble_ok rows es :
  List.length rows = List.length es ->
  exists ds, assemble rows es = Ok ds.
Proof.
  revert es. induction rows as [|row rows IH]; intros [|e es] Hlen;
    try discriminate; simpl.
  - now exists [].
  - destruct (IH es) as [ds ->]; [now injection Hlen|]. simpl. eauto.
Qed.

(** A successful assembly keeps the rows and the energies, pairs them up in
    order and counts every row once. *)
Lemma assemble_inv rows es ds :
  assemble rows es = Ok ds ->
  map sample ds = rows /\ map energy ds = es /\
  Forall (fun d => num_occurrences d = 1) ds.
Proof.
  revert es ds. induction rows as [|row rows IH]; intros [|e es] ds H;
    simpl in H; try discriminate.
  - injection H as <-. repeat split. constructor.
  - destruct (assemble rows es) as [ds'|] eqn:Hds; [|discriminate].
    simpl in H. injection H as <-.
    destruct (IH es ds' Hds) as (Hs & He & Hn).
    simpl. rewrite Hs, He. repeat split. now constructor.
Qed.

Lemma assemble_related (P : list Z -> Q -> Prop) rows es ds :
  assemble rows es = Ok ds -> Forall2 P rows es ->
  Forall (fun d => P (sample d) (energy d)) ds.
Proof.
  intros Hds Hrel. revert ds Hds.
  induction Hrel as [|row e rows es Hp _ IH]; intros ds Hds; simpl in Hds.
  - injection Hds as <-. constructor.
  - destruct (assemble rows es) as [ds'|]; [|discriminate].
    simpl in Hds. injection Hds as <-. constructor; auto.
Qed.

End AssembleFacts.

(** * The [child] accessor *)

Section ChildFacts.

Import Composite.

Context {Sampler : Type}.

Implicit Types (self : Composite Sampler) (l : list Sampler).

(** [child] is the subscript [children[0]] behind one handler. *)
Lemma child_of_getitem self :
  child self =
  match getitem (children self) 0 with
  | Ok s => Ok s
  | Raise IndexError => Raise missing_child
  | Raise e => Raise e
  end.
Proof.
  unfold child, try_except.
  destruct (getitem (children self) 0) as [s|[]]; reflexivity.
Qed.

(** The subscript never raises the accessor's own error. *)
Lemma getitem_never_missing_child (obj : pyobj Sampler) i :
  getitem obj i <> Raise missing_child.
Proof.
  destruct obj as [| |l|l|d]; simpl; try discriminate.
  - destruct (nth_error l i); discriminate.
  - destruct (nth_error l i); discriminate.
  - destruct (dict_get Sampler d (Z.of_nat i)); discriminate.
Qed.

(** C4. On a composite whose [children] list is empty, reading [child]
    raises the [RuntimeError] "A Composite must have at least one child
    Sampler", and so does each of any number [k] of successive reads. *)
Theorem child_empty_children_fails self k :
  children self = PyList [] ->
  child self = Raise missing_child /\
  Forall (fun r => r = Raise missing_child) (child_reads self k).
Proof.
  intros Hempty.
  assert (Hone : child self = Raise missing_child)
    by (unfold child; now rewrite Hempty).
  split; [exact Hone|].
  unfold child_reads. apply Forall_forall. intros r Hr.
  apply in_map_iff in Hr as (_ & <- & _). exact Hone.
Qed.

(** C5. On a composite whose [children] list has length [k >= 1], [child]
    returns the first element of the list, which is what [children[0]]
    evaluates to, whatever [k] is. *)
Theorem child_is_first_child self l k :
  children self = PyList l -> List.length l = k -> 1 <= k ->
  child self = getitem (children self) 0 /\
  exists x, hd_error l = Some x /\ child self = Ok x.
Proof.
  intros Hl Hlen Hk. destruct l as [|x rest]; [simpl in Hlen; lia|].
  unfold child. rewrite Hl. simpl. eauto.
Qed.

(** C10. [child] turns an [IndexError] of [children[0]] into the "missing
    required component" error and lets every other exception through as it
    is; in particular, when [children] is not subscriptable ([None] or an
    [int]), reading [child] raises the [TypeError] of the subscript and not
    the "missing required component" error. *)
Theorem child_converts_only_IndexError self e :
  getitem (children self) 0 = Raise e ->
  (e = IndexError -> child self = Raise missing_child) /\
  (e <> IndexError -> child self = Raise e /\ child self <> Raise missing_child) /\
  (children self = PyNone \/ (exists z, children self = PyInt z) ->
   e = TypeError /\ child self = Raise TypeError).
Proof.
  intros He. rewrite child_of_getitem, He. split; [|split].
  - now intros ->.
  - intros Hne. split; [destruct e; congruence|].
    intros Heq.
    assert (e = missing_child) by (destruct e; congruence). subst e.
    now apply getitem_never_missing_child in He.
  - intros [Hn|[z Hz]]; [rewrite Hn in He | rewrite Hz in He];
      simpl in He; injection He as <-; split; reflexivity.
Qed.

End ChildFacts.

Lemma child_empty_children_fails_witness :
  let self := {| Composite.children := Composite.PyList (@nil nat) |} in
  Composite.children self = Composite.PyList [] /\
  Composite.child self = Raise Composite.missing_child /\
  Forall (fun r => r = Raise Composite.missing_child)
    (Composite.child_reads self 3).
Proof.
  intros self. split; [reflexivity|].
  apply (child_empty_children_fails self 3). reflexivity.
Defined.

Lemma child_is_first_child_witness :
  let self := {| Composite.children := Composite.PyList [7; 8; 9] |} in
  Composite.child self = Composite.getitem (Composite.children self) 0 /\
  exists x, hd_error [7; 8; 9] = Some x /\ Composite.child self = Ok x.
Proof.
  intros self.
  apply (child_is_first_child self [7; 8; 9] 3); [reflexivity | reflexivity | lia].
Defined.

Lemma child_converts_only_IndexError_witness :
  let self := {| Composite.children := @Composite.PyNone nat |} in
  Composite.getitem (Composite.children self) 0 = Raise TypeError /\
  Composite.child self = Raise TypeError.
Proof.
  intros self. split; [reflexivity|].
  destruct (child_converts_only_IndexError self TypeError) as (_ & _ & Hnone);
    [reflexivity|].
  destruct Hnone as [_ Hchild]; [left; reflexivity | exact Hchild].
Defined.

(** * The exact solver *)

Section ExactSolverFacts.

Import ExactSolver.

Implicit Types (self : ExactSolver) (bqm : BQM.BinaryQuadraticModel).

(** Either domain has two values, and they differ. *)
Lemma value_two_distinct (vt : Vartype.Vartype) :
  exists a b, Vartype.value vt = [a; b] /\ a <> b.
Proof.
  destruct vt; simpl; eexists; eexists; (split; [reflexivity | discriminate]).
Qed.

Lemma value_NoDup (vt : Vartype.Vartype) : NoDup (Vartype.value vt).
Proof.
  destruct (value_two_distinct vt) as (a & b & -> & Hab).
  repeat constructor; simpl; intuition congruence.
Qed.

Lemma value_length (vt : Vartype.Vartype) :
  List.length (Vartype.value vt) = 2.
Proof. now destruct vt. Qed.

Lemma enumerate_nested bqm :
  enumerate bqm
  = Spec.nested_product (Vartype.value (BQM.vartype bqm)) (BQM.len bqm).
Proof. apply product_nested. Qed.

Lemma enumerate_row_length bqm :
  Forall (fun row => List.length row = BQM.len bqm) (enumerate bqm).
Proof.
  apply Forall_forall. intros row Hrow. rewrite enumerate_nested in Hrow.
  now apply nested_product_in in Hrow as [Hlen _].
Qed.

Lemma sample_self self bqm : fst (sample self bqm) = self.
Proof. unfold sample. now destruct (Nat.eqb (BQM.len bqm) 0). Qed.

Lemma sample_empty self bqm :
  BQM.len bqm = 0 ->
  snd (sample self bqm)
  = SampleSet.from_samples ([], []) (BQM.vartype bqm) [].
Proof. intros Hn. unfold sample. now rewrite Hn. Qed.

Lemma sample_nonempty self bqm :
  BQM.len bqm <> 0 ->
  snd (sample self bqm)
  = SampleSet.from_samples_bqm (enumerate bqm, BQM.variables bqm) bqm.
Proof.
  intros Hn. unfold sample.
  destruct (Nat.eqb_spec (BQM.len bqm) 0); [contradiction | reflexivity].
Qed.

(** What a returned result set holds, whether or not the model is
    well formed. *)
Lemma from_samples_bqm_inv rows labels bqm ss :
  SampleSet.from_samples_bqm (rows, labels) bqm = Ok ss ->
  SampleSet.samples ss = rows /\
  SampleSet.variables ss = labels /\
  SampleSet.vartype ss = BQM.vartype bqm /\
  BQM.energies bqm labels rows = Ok (map SampleSet.energy (SampleSet.record ss)) /\
  Forall (fun d => SampleSet.num_occurrences d = 1) (SampleSet.record ss) /\
  Forall (fun d => BQM.energy bqm labels (SampleSet.sample d)
                   = Ok (SampleSet.energy d)) (SampleSet.record ss).
Proof.
  unfold SampleSet.from_samples_bqm, SampleSet.from_samples. simpl.
  destruct (BQM.energies bqm labels rows) as [es|] eqn:Hes; [|discriminate].
  simpl. destruct (SampleSet.assemble rows es) as [ds|] eqn:Hds;
    [|discriminate].
  simpl. intros H. injection H as <-. unfold SampleSet.samples. simpl.
  destruct (assemble_inv rows es ds Hds) as (Hs & He & Hn).
  repeat split; trivial.
  - now rewrite He.
  - apply (assemble_related
             (fun row e => BQM.energy bqm labels row = Ok e) rows es ds Hds).
    now apply energies_inv.
Qed.

(** On a well-formed model with at least one variable the solver returns. *)
Lemma sample_returns self bqm :
  BQM.well_formed bqm = true -> BQM.len bqm <> 0 ->
  exists ss, snd (sample self bqm) = Ok ss.
Proof.
  intros Hwf Hn. rewrite sample_nonempty by assumption.
  unfold SampleSet.from_samples_bqm, SampleSet.from_samples. simpl.
  destruct (energies_ok bqm (enumerate bqm) Hwf (enumerate_row_length bqm))
    as [es Hes].
  rewrite Hes. simpl.
  destruct (assemble_ok (enumerate bqm) es) as [ds ->]; [|simpl; eauto].
  apply energies_inv in Hes. now apply Forall2_length in Hes.
Qed.

End ExactSolverFacts.

Section ExactSolverClaims.

Import ExactSolver.

Implicit Types (self : ExactSolver) (bqm : BQM.BinaryQuadraticModel).

Lemma energy_inv bqm labels row e :
  BQM.energy bqm labels row = Ok e ->
  exists l q,
    BQM.linear_energy labels row (BQM.linear bqm) = Ok l /\
    BQM.quadratic_energy labels row (BQM.quadratic bqm) = Ok q /\
    e = (l + q + BQM.offset bqm)%Q.
Proof.
  unfold BQM.energy.
  destruct (BQM.linear_energy labels row (BQM.linear bqm)) as [l|];
    [|discriminate].
  destruct (BQM.quadratic_energy labels row (BQM.quadratic bqm)) as [q|];
    [|discriminate].
  simpl. intros H. injection H as <-. now exists l, q.
Qed.

(** C1. On a well-formed model with [n >= 1] variables, [sample] returns a
    result set of exactly [2^n] records whose assignment vectors are pairwise
    distinct, are exactly the length-[n] vectors over the two values of the
    model's domain, and hold each such vector exactly once. *)
Theorem sample_covers_all_assignments self bqm :
  BQM.well_formed bqm = true -> 1 <= BQM.len bqm ->
  exists ss,
    snd (sample self bqm) = Ok ss /\
    List.length (SampleSet.record ss) = 2 ^ BQM.len bqm /\
    NoDup (SampleSet.samples ss) /\
    (forall s, In s (SampleSet.samples ss) <->
       Spec.assignment (Vartype.value (BQM.vartype bqm)) (BQM.len bqm) s) /\
    (forall s,
       Spec.assignment (Vartype.value (BQM.vartype bqm)) (BQM.len bqm) s ->
       count_occ (list_eq_dec Z.eq_dec) (SampleSet.samples ss) s = 1).
Proof.
  intros Hwf Hn.
  destruct (sample_returns self bqm Hwf) as [ss Hss]; [lia|].
  exists ss. split; [exact Hss|].
  rewrite sample_nonempty in Hss by lia.
  apply from_samples_bqm_inv in Hss as (Hrows & _).
  rewrite enumerate_nested in Hrows.
  assert (Hnodup : NoDup (SampleSet.samples ss))
    by (rewrite Hrows; apply nested_product_NoDup, value_NoDup).
  split; [|split; [|split]].
  - replace (List.length (SampleSet.record ss))
      with (List.length (SampleSet.samples ss))
      by (unfold SampleSet.samples; apply length_map).
    now rewrite Hrows, nested_product_length, value_length.
  - exact Hnodup.
  - intros s. rewrite Hrows. apply nested_product_in.
  - intros s Hs.
    apply (proj1 (NoDup_count_occ' (list_eq_dec Z.eq_dec) _) Hnodup).
    rewrite Hrows. now apply nested_product_in.
Qed.

(** C2. On a well-formed model, [sample] returns a result set in which the
    energy recorded with each assignment is the value of the model's energy
    function on that assignment: its linear contribution plus its quadratic
    contribution plus the offset. *)
Theorem sample_energy_consistent self bqm :
  BQM.well_formed bqm = true ->
  exists ss,
    snd (sample self bqm) = Ok ss /\
    Forall
      (fun d =>
         BQM.energy bqm (BQM.variables bqm) (SampleSet.sample d)
         = Ok (SampleSet.energy d) /\
         exists l q,
           BQM.linear_energy (BQM.variables bqm) (SampleSet.sample d)
             (BQM.linear bqm) = Ok l /\
           BQM.quadratic_energy (BQM.variables bqm) (SampleSet.sample d)
             (BQM.quadratic bqm) = Ok q /\
           SampleSet.energy d = (l + q + BQM.offset bqm)%Q)
      (SampleSet.record ss).
Proof.
  intros Hwf. destruct (Nat.eq_dec (BQM.len bqm) 0) as [Hz|Hnz].
  - rewrite (sample_empty self bqm Hz). eexists. split; [reflexivity|].
    constructor.
  - destruct (sample_returns self bqm Hwf Hnz) as [ss Hss].
    exists ss. split; [exact Hss|].
    rewrite sample_nonempty in Hss by assumption.
    apply from_samples_bqm_inv in Hss as (_ & _ & _ & _ & _ & Hen).
    eapply Forall_impl; [|exact Hen].
    intros d Hd. split; [exact Hd | now apply energy_inv].
Qed.

(** C3. On a model without variables, [sample] returns the result set built
    from no samples and no energies: no record, no variable, the model's
    domain tag.  The enumeration, which for zero positions has one (empty)
    row, is not run. *)
Theorem sample_no_variables self bqm :
  BQM.len bqm = 0 ->
  snd (sample self bqm)
  = SampleSet.from_samples ([], []) (BQM.vartype bqm) [] /\
  snd (sample self bqm)
  = Ok {| SampleSet.record := [];
          SampleSet.variables := [];
          SampleSet.vartype := BQM.vartype bqm |} /\
  enumerate bqm = [[]] /\
  forall ss, snd (sample self bqm) = Ok ss ->
    SampleSet.samples ss = [] /\
    map SampleSet.energy (SampleSet.record ss) = [] /\
    SampleSet.vartype ss = BQM.vartype bqm /\
    SampleSet.samples ss <> enumerate bqm.
Proof.
  intros Hz.
  assert (Henum : enumerate bqm = [[]])
    by (unfold enumerate; now rewrite Hz).
  rewrite (sample_empty self bqm Hz).
  split; [reflexivity|]. split; [reflexivity|]. split; [exact Henum|].
  intros ss Hss. injection Hss as <-. rewrite Henum.
  repeat split. discriminate.
Qed.

(** C6. On a well-formed model with [n >= 1] variables, the assignment
    vectors of the returned result set come in the order of [n] nested loops
    over the domain's two values, the first position outermost: row [i]
    (for [i] from 0 to [2^n - 1]) holds at position [j] the domain's first
    value when bit [n-1-j] of [i] is clear and its second value when it is
    set.  The result depends on the model alone. *)
Theorem sample_order_lexicographic self bqm :
  BQM.well_formed bqm = true -> 1 <= BQM.len bqm ->
  exists ss,
    snd (sample self bqm) = Ok ss /\
    SampleSet.samples ss
    = Spec.nested_product (Vartype.value (BQM.vartype bqm)) (BQM.len bqm) /\
    SampleSet.samples ss
    = map (Spec.row_of_index 0%Z (Vartype.value (BQM.vartype bqm))
             (BQM.len bqm))
          (seq 0 (2 ^ BQM.len bqm)) /\
    forall self', snd (sample self' bqm) = Ok ss.
Proof.
  intros Hwf Hn.
  destruct (sample_returns self bqm Hwf) as [ss Hss]; [lia|].
  exists ss. split; [exact Hss|].
  rewrite sample_nonempty in Hss by lia.
  pose proof Hss as Hinv.
  apply from_samples_bqm_inv in Hinv as (Hrows & _).
  rewrite enumerate_nested in Hrows.
  repeat split.
  - exact Hrows.
  - rewrite Hrows.
    destruct (value_two_distinct (BQM.vartype bqm)) as (a & b & -> & _).
    apply nested_product_by_index.
  - intros self'. now rewrite sample_nonempty by lia.
Qed.

(** C7. On a well-formed model with [n >= 1] variables, every record of the
    returned result set has occurrence count 1, the result set carries the
    model's variables in the model's order and the model's domain tag, and
    its rows and energies are the enumerated rows and their energies, in
    enumeration order, none merged, moved or dropped. *)
Theorem sample_assembles_unchanged self bqm :
  BQM.well_formed bqm = true -> 1 <= BQM.len bqm ->
  exists ss,
    snd (sample self bqm) = Ok ss /\
    Forall (fun d => SampleSet.num_occurrences d = 1) (SampleSet.record ss) /\
    SampleSet.variables ss = BQM.variables bqm /\
    SampleSet.vartype ss = BQM.vartype bqm /\
    SampleSet.samples ss = enumerate bqm /\
    BQM.energies bqm (BQM.variables bqm) (enumerate bqm)
    = Ok (map SampleSet.energy (SampleSet.record ss)).
Proof.
  intros Hwf Hn.
  destruct (sample_returns self bqm Hwf) as [ss Hss]; [lia|].
  exists ss. split; [exact Hss|].
  rewrite sample_nonempty in Hss by lia.
  apply from_samples_bqm_inv in Hss as (Hrows & Hvars & Hvt & Hes & Hocc & _).
  repeat split; assumption.
Qed.

(** C8, as the code has it.  [sample] takes the model and nothing else: a
    call without keyword options runs [sample] on the model, and a call with
    at least one keyword option raises [TypeError] and returns no result
    set. *)
Theorem call_sample_accepts_model_only self bqm :
  call_sample self bqm [] = sample self bqm /\
  forall kw kwargs,
    call_sample self bqm (kw :: kwargs) = (self, Raise TypeError).
Proof. split; reflexivity. Qed.

(** C8, as the claim states it, fails: the call with the keyword option
    [num_reads=10] on the docstring's model raises [TypeError], while the
    same call without the option returns a result set. *)
Lemma call_sample_rejects_keyword :
  snd (call_sample __init__ Examples.ising_ab [("num_reads", VInt 10)])
  = Raise TypeError /\
  exists ss, snd (call_sample __init__ Examples.ising_ab []) = Ok ss.
Proof. split; [reflexivity | eexists; reflexivity]. Qed.

(** C9. A freshly constructed solver has empty [properties] and
    [parameters], and [sample], called with or without keyword options,
    returning or raising, hands back the instance it was given with both
    maps as they were. *)
Theorem sample_preserves_instance :
  properties __init__ = [] /\
  parameters __init__ = [] /\
  forall self bqm kwargs,
    fst (sample self bqm) = self /\
    fst (call_sample self bqm kwargs) = self /\
    properties (fst (call_sample self bqm kwargs)) = properties self /\
    parameters (fst (call_sample self bqm kwargs)) = parameters self.
Proof.
  repeat split; try apply sample_self;
    destruct kwargs; simpl; now rewrite ?sample_self.
Qed.

End ExactSolverClaims.

(** * The claims at concrete models *)

Section Witnesses.

Import ExactSolver Examples.

(** The docstring of [ExactSolver]: rows 0 to 3 of the sample set of the
    Ising model are (+1,+1), (+1,-1), (-1,+1), (-1,-1), with energies -1, 0,
    3 and -2, each counted once. *)
Example sample_ising_ab :
  exists ss,
    snd (sample __init__ ising_ab) = Ok ss /\
    map (fun d => (SampleSet.sample d, Qred (SampleSet.energy d),
                   SampleSet.num_occurrences d))
        (SampleSet.record ss)
    = [([1; 1]%Z, (-1)%Q, 1); ([1; -1]%Z, 0%Q, 1);
       ([-1; 1]%Z, 3%Q, 1); ([-1; -1]%Z, (-2)%Q, 1)] /\
    SampleSet.variables ss = ["a"; "b"] /\
    SampleSet.vartype ss = Vartype.SPIN.
Proof. eexists. split; [reflexivity|]. repeat split. Qed.

(** A single-variable model has two samples. *)
Example sample_binary_x :
  exists ss,
    snd (sample __init__ binary_x) = Ok ss /\
    map (fun d => (SampleSet.sample d, Qred (SampleSet.energy d)))
        (SampleSet.record ss)
    = [([0]%Z, 1%Q); ([1]%Z, 3%Q)].
Proof. eexists. split; reflexivity. Qed.

Lemma sample_covers_all_assignments_witness :
  BQM.well_formed ising_ab = true /\ 1 <= BQM.len ising_ab /\
  exists ss,
    snd (sample __init__ ising_ab) = Ok ss /\
    List.length (SampleSet.record ss) = 2 ^ BQM.len ising_ab /\
    NoDup (SampleSet.samples ss) /\
    (forall s, In s (SampleSet.samples ss) <->
       Spec.assignment (Vartype.value (BQM.vartype ising_ab))
         (BQM.len ising_ab) s) /\
    (forall s,
       Spec.assignment (Vartype.value (BQM.vartype ising_ab))
         (BQM.len ising_ab) s ->
       count_occ (list_eq_dec Z.eq_dec) (SampleSet.samples ss) s = 1).
Proof.
  split; [reflexivity|]. split; [vm_compute; lia|].
  apply (sample_covers_all_assignments __init__ ising_ab);
    [reflexivity | vm_compute; lia].
Defined.

Lemma sample_energy_consistent_witness :
  BQM.well_formed ising_ab = true /\
  exists ss,
    snd (sample configured ising_ab) = Ok ss /\
    Forall
      (fun d =>
         BQM.energy ising_ab (BQM.variables ising_ab) (SampleSet.sample d)
         = Ok (SampleSet.energy d) /\
         exists l q,
           BQM.linear_energy (BQM.variables ising_ab) (SampleSet.sample d)
             (BQM.linear ising_ab) = Ok l /\
           BQM.quadratic_energy (BQM.variables ising_ab) (SampleSet.sample d)
             (BQM.quadratic ising_ab) = Ok q /\
           SampleSet.energy d = (l + q + BQM.offset ising_ab)%Q)
      (SampleSet.record ss).
Proof.
  split; [reflexivity|].
  apply (sample_energy_consistent configured ising_ab). reflexivity.
Defined.

Lemma sample_no_variables_witness :
  BQM.len empty_spin = 0 /\
  snd (sample __init__ empty_spin)
  = Ok {| SampleSet.record := [];
          SampleSet.variables := [];
          SampleSet.vartype := Vartype.SPIN |}.
Proof.
  split; [reflexivity|].
  apply (sample_no_variables __init__ empty_spin). reflexivity.
Defined.

Lemma sample_order_lexicographic_witness :
  BQM.well_formed ising_ab = true /\ 1 <= BQM.len ising_ab /\
  exists ss,
    snd (sample __init__ ising_ab) = Ok ss /\
    SampleSet.samples ss
    = Spec.nested_product (Vartype.value (BQM.vartype ising_ab))
        (BQM.len ising_ab) /\
    SampleSet.samples ss
    = map (Spec.row_of_index 0%Z (Vartype.value (BQM.vartype ising_ab))
             (BQM.len ising_ab))
          (seq 0 (2 ^ BQM.len ising_ab)) /\
    forall self', snd (sample self' ising_ab) = Ok ss.
Proof.
  split; [reflexivity|]. split; [vm_compute; lia|].
  apply (sample_order_lexicographic __init__ ising_ab);
    [reflexivity | vm_compute; lia].
Defined.

Lemma sample_assembles_unchanged_witness :
  BQM.well_formed ising_ab = true /\ 1 <= BQM.len ising_ab /\
  exists ss,
    snd (sample configured ising_ab) = Ok ss /\
    Forall (fun d => SampleSet.num_occurrences d = 1) (SampleSet.record ss) /\
    SampleSet.variables ss = BQM.variables ising_ab /\
    SampleSet.vartype ss = BQM.vartype ising_ab /\
    SampleSet.samples ss = enumerate ising_ab /\
    BQM.energies ising_ab (BQM.variables ising_ab) (enumerate ising_ab)
    = Ok (map SampleSet.energy (SampleSet.record ss)).
Proof.
  split; [reflexivity|]. split; [vm_compute; lia|].
  apply (sample_assembles_unchanged configured ising_ab);
    [reflexivity | vm_compute; lia].
Defined.

End Witnesses.

(** * More on the [child] accessor *)

Section ChildMore.

Import Composite.

Context {Sampler : Type}.

Implicit Types (self : Composite Sampler).

(** An [IndexError] never leaves [child]: the handler replaces the only one
    the subscript can raise, and the replacement is a [RuntimeError]. *)
Theorem child_never_IndexError self :
  child self <> Raise IndexError.
Proof.
  rewrite child_of_getitem.
  destruct (getitem (children self) 0) as [s|[]]; discriminate.
Qed.

End ChildMore.

(** * More on the exact solver *)

Section ExactSolverMore.

Import ExactSolver.

Implicit Types (self : ExactSolver) (bqm : BQM.BinaryQuadraticModel).

Lemma enumerate_length bqm :
  List.length (enumerate bqm) = 2 ^ BQM.len bqm.
Proof.
  now rewrite enumerate_nested, nested_product_length, value_length.
Qed.

Lemma enumerate_nonempty bqm :
  exists row rest, enumerate bqm = row :: rest.
Proof.
  pose proof (enumerate_length bqm) as Hlen.
  assert (Hpos : 2 ^ BQM.len bqm <> 0) by (apply Nat.pow_nonzero; discriminate).
  destruct (enumerate bqm) as [|row rest]; [simpl in Hlen; lia | eauto].
Qed.

(** Among finitely many records, at least one, one has the least energy. *)
Lemma least_energy_record (ds : list SampleSet.Datum) :
  ds <> [] ->
  exists d, In d ds /\
    forall d', In d' ds -> (SampleSet.energy d <= SampleSet.energy d')%Q.
Proof.
  induction ds as [|d ds IH]; [congruence|]. intros _.
  destruct ds as [|d2 ds].
  - exists d. split; [now left|]. intros d' [<-|[]]. apply Qle_refl.
  - destruct IH as (m & Hm & Hleast); [discriminate|].
    destruct (Qlt_le_dec (SampleSet.energy d) (SampleSet.energy m))
      as [Hlt|Hle].
    + exists d. split; [now left|]. intros d' [<-|Hd']; [apply Qle_refl|].
      apply Qle_trans with (SampleSet.energy m);
        [now apply Qlt_le_weak | now apply Hleast].
    + exists m. split; [now right|]. intros d' [<-|Hd']; [exact Hle|].
      now apply Hleast.
Qed.


(** Every result set that [sample] returns is consistent with its own tags:
    each row has one entry per variable label of the result set, and each
    entry is one of the two values of the result set's domain. *)
Theorem sample_result_well_typed self bqm ss :
  snd (sample self bqm) = Ok ss ->
  Forall
    (fun d =>
       List.length (SampleSet.sample d)
       = List.length (SampleSet.variables ss) /\
       Forall (fun x => In x (Vartype.value (SampleSet.vartype ss)))
         (SampleSet.sample d))
    (SampleSet.record ss).
Proof.
  intros Hss. destruct (Nat.eq_dec (BQM.len bqm) 0) as [Hz|Hnz].
  - rewrite (sample_empty self bqm Hz) in Hss. injection Hss as <-.
    constructor.
  - rewrite sample_nonempty in Hss by assumption.
    apply from_samples_bqm_inv in Hss as (Hrows & Hvars & Hvt & _).
    rewrite Hvars, Hvt. apply Forall_forall. intros d Hd.
    assert (Hin : In (SampleSet.sample d) (enumerate bqm))
      by (rewrite <- Hrows; unfold SampleSet.samples; now apply in_map).
    rewrite enumerate_nested in Hin.
    apply nested_product_in in Hin as [Hlen Hdom].
    split; [|exact Hdom].
    rewrite Hlen. unfold BQM.variables, BQM.len. now rewrite length_map.
Qed.

(** The solver is exact: on a well-formed model with at least one variable
    the returned result set has a record whose energy is at most the energy
    of every assignment of the model's variables over the model's domain. *)
Theorem sample_contains_ground_state self bqm :
  BQM.well_formed bqm = true -> 1 <= BQM.len bqm ->
  exists ss d,
    snd (sample self bqm) = Ok ss /\
    In d (SampleSet.record ss) /\
    forall s e,
      Spec.assignment (Vartype.value (BQM.vartype bqm)) (BQM.len bqm) s ->
      BQM.energy bqm (BQM.variables bqm) s = Ok e ->
      (SampleSet.energy d <= e)%Q.
Proof.
  intros Hwf Hn.
  destruct (sample_returns self bqm Hwf) as [ss Hss]; [lia|].
  pose proof Hss as Hinv. rewrite sample_nonempty in Hinv by lia.
  apply from_samples_bqm_inv in Hinv as (Hrows & _ & _ & _ & _ & Hen).
  destruct (least_energy_record (SampleSet.record ss)) as (d & Hd & Hleast).
  { intros Hnil. pose proof (enumerate_nonempty bqm) as (row & rest & Henum).
    rewrite <- Hrows in Henum. unfold SampleSet.samples in Henum.
    rewrite Hnil in Henum. discriminate. }
  exists ss, d. split; [exact Hss|]. split; [exact Hd|].
  intros s e Hs He.
  apply nested_product_in in Hs. rewrite <- enumerate_nested, <- Hrows in Hs.
  apply in_map_iff in Hs as (d' & <- & Hd').
  rewrite Forall_forall in Hen. rewrite (Hen d' Hd') in He.
  injection He as <-. now apply Hleast.
Qed.

End ExactSolverMore.

Section MoreWitnesses.

Import ExactSolver.


Lemma sample_result_well_typed_witness :
  exists ss,
    snd (sample __init__ Examples.binary_x) = Ok ss /\
    Forall
      (fun d =>
         List.length (SampleSet.sample d)
         = List.length (SampleSet.variables ss) /\
         Forall (fun x => In x (Vartype.value (SampleSet.vartype ss)))
           (SampleSet.sample d))
      (SampleSet.record ss).
Proof.
  eexists. split; [reflexivity|].
  apply (sample_result_well_typed __init__ Examples.binary_x). reflexivity.
Defined.

Lemma sample_contains_ground_state_witness :
  BQM.well_formed Examples.ising_ab = true /\
  1 <= BQM.len Examples.ising_ab /\
  exists ss d,
    snd (sample __init__ Examples.ising_ab) = Ok ss /\
    In d (SampleSet.record ss) /\
    forall s e,
      Spec.assignment (Vartype.value (BQM.vartype Examples.ising_ab))
        (BQM.len Examples.ising_ab) s ->
      BQM.energy Examples.ising_ab (BQM.variables Examples.ising_ab) s
      = Ok e ->
      (SampleSet.energy d <= e)%Q.
Proof.
  split; [reflexivity|]. split; [vm_compute; lia|].
  apply (sample_contains_ground_state __init__ Examples.ising_ab);
    [reflexivity | vm_compute; lia].
Defined.

End MoreWitnesses.
